(** * cdfwriter: the buffered CDF writer session

    A shallow embedding of [cdfwriter/interface.py] (class [CDFWriter]):
    the attribute registry, the schema catalog, the data accumulator with
    its time span, the file naming and sealing protocol of [close], and the
    split policy of [closeRecord].

    Conventions of the embedding.
    - Python text is a Rocq [string] of ASCII characters.
    - Arguments are typed, so the [isinstance] guards of the source (which
      raise [TypeError] on a value of the wrong Python type) always pass and
      are not repeated.
    - A method is a computation over the writer object and the outside world
      (file system, clock, process id, random source).  It ends by returning,
      by raising a Python exception, or by aborting the process; the object
      keeps every mutation made before an exception.
    - Calls into the container backend (spacepy.pycdf) and the file-system
      calls are recorded, in order, in the trace of the world.  The backend is
      taken not to raise: the handlers the source puts around some of its
      calls only print and go on.
    - [cloneVariable], which reads a variable of an open container, and the
      printing helpers [__repr__] and [__iter__] are left out. *)

From Stdlib Require Import Ascii ZArith Lia.
From stdpp Require Import gmap strings list pretty.

(** ** Python text *)

Module PyStr.

(** [len(s) == 0] *)
Definition is_empty (s : string) : bool :=
  match s with "" => true | String _ _ => false end.

(** [c in '0123456789'], the ASCII case of [str.isdigit] on one character. *)
Definition digit_char (c : ascii) : bool :=
  match Ascii.is_nat c with Some _ => true | None => false end.

Fixpoint all_digits (s : string) : bool :=
  match s with
  | "" => true
  | String c s' => digit_char c && all_digits s'
  end.

(** [s.isdigit()]: at least one character, and every character a digit. *)
Definition isdigit (s : string) : bool :=
  negb (is_empty s) && all_digits s.

(** [s.split(sep)] for a one-character separator: the pieces between the
    separators, empty pieces included; never an empty list. *)
Fixpoint split (sep : ascii) (s : string) : list string :=
  match s with
  | "" => [""]
  | String c s' =>
      if decide (c = sep) then "" :: split sep s'
      else match split sep s' with
           | [] => [String c ""]
           | piece :: pieces => String c piece :: pieces
           end
  end.

(** [s.endswith(c)] for a one-character suffix. *)
Fixpoint endswith (s : string) (c : ascii) : bool :=
  match s with
  | "" => false
  | String d "" => bool_decide (d = c)
  | String _ s' => endswith s' c
  end.

(** [s.endswith(('/', '\\'))] *)
Definition ends_with_separator (s : string) : bool :=
  endswith s "/" || endswith s "\".

(** [sep.join(pieces)] *)
Fixpoint join (sep : string) (pieces : list string) : string :=
  match pieces with
  | [] => ""
  | [p] => p
  | p :: ps => p +:+ sep +:+ join sep ps
  end.

(** [repr] of a list of plain names: ['a', 'b'] (names are taken to need no
    escaping). *)
Definition repr_names (names : list string) : string :=
  "[" +:+ join ", " (map (λ n, "'" +:+ n +:+ "'") names) +:+ "]".

(** [s.zfill(width)] *)
Definition zfill (width : nat) (s : string) : string :=
  String.concat "" (replicate (width - String.length s) "0") +:+ s.

End PyStr.

(** ** datetime *)

Module datetime.

Local Open Scope Z_scope.

(** A naive [datetime.datetime]. *)
Record datetime := mk {
  year : Z; month : Z; day : Z;
  hour : Z; minute : Z; second : Z; microsecond : Z
}.

(** A [datetime.timedelta], by its total number of microseconds: Python
    keeps a timedelta normalised, so comparing two of them is comparing
    these totals. *)
Definition timedelta := Z.

Definition microseconds (n : Z) : timedelta := n.
Definition seconds (n : Z) : timedelta := n * 1000000.
Definition hours (n : Z) : timedelta := seconds (n * 3600).
Definition days (n : Z) : timedelta := seconds (n * 86400).

Definition is_leap (y : Z) : bool :=
  (y mod 4 =? 0) && (negb (y mod 100 =? 0) || (y mod 400 =? 0)).

(** Number of days before January 1st of year [y]. *)
Definition days_before_year (y : Z) : Z :=
  let p := y - 1 in p * 365 + p / 4 - p / 100 + p / 400.

(** Number of days in the year before the first day of month [m]. *)
Definition days_before_month (y m : Z) : Z :=
  nth (Z.to_nat m) [-1; 0; 31; 59; 90; 120; 151; 181; 212; 243; 273; 304; 334] 0
  + (if (2 <? m) && is_leap y then 1 else 0).

(** [d.toordinal()] *)
Definition toordinal (d : datetime) : Z :=
  days_before_year (year d) + days_before_month (year d) (month d) + day d.

(** [a - b] on two naive datetimes. *)
Definition sub (a b : datetime) : timedelta :=
  days (toordinal a - toordinal b)
  + seconds ((second a + minute a * 60 + hour a * 3600)
             - (second b + minute b * 60 + hour b * 3600))
  + microseconds (microsecond a - microsecond b).

(** A number as a zero-padded decimal field of [strftime]. *)
Definition field (width : nat) (n : Z) : string :=
  PyStr.zfill width (pretty n).

(** One conversion of [strftime]; the formats of this program use
    %Y %m %d %H %M only, an unknown conversion is kept as it is. *)
Definition directive (c : ascii) (d : datetime) : string :=
  match c with
  | "Y"%char => field 4 (year d)
  | "m"%char => field 2 (month d)
  | "d"%char => field 2 (day d)
  | "H"%char => field 2 (hour d)
  | "M"%char => field 2 (minute d)
  | "S"%char => field 2 (second d)
  | _ => String "%" (String c "")
  end.

(** [d.strftime(fmt)] *)
Fixpoint strftime (d : datetime) (fmt : string) : string :=
  match fmt with
  | "" => ""
  | String c rest =>
      if decide (c = "%"%char) then
        match rest with
        | "" => "%"
        | String k rest' => directive k d +:+ strftime d rest'
        end
      else String c (strftime d rest)
  end.

End datetime.

Abbreviation datetime := datetime.datetime.
Abbreviation timedelta := datetime.timedelta.

(** ** Python values *)

(** The value of an attribute: [None], text, an integer, or a float written
    as the decimal literal [mantissa]e[exp10] (1.0e31 is [AFloat 1 31]). *)
Inductive attr_value :=
| ANone
| AStr (s : string)
| AInt (z : Z)
| AFloat (mantissa exp10 : Z).

(** A data payload: a time stamp, a number, or a Python list of payloads. *)
#[warnings="-register-all"]
Inductive pydata :=
| DTime (t : datetime)
| DInt (z : Z)
| DFloat (mantissa exp10 : Z)
| DSeq (items : list pydata).

(** [type(x).__name__] as the interpreter prints it in its messages. *)
Definition type_name (x : option pydata) : string :=
  match x with
  | None => "NoneType"
  | Some (DTime _) => "datetime.datetime"
  | Some (DInt _) => "int"
  | Some (DFloat _ _) => "float"
  | Some (DSeq _) => "list"
  end.

(** The exceptions this program raises or lets through. *)
Inductive exn :=
| TypeError (msg : string)
| ValueError (msg : string)
| RuntimeError (args : list string)
| AssertionError
| IndexError (msg : string)
| AttributeError (msg : string)
| FileNotFoundError (path : string).

(** The element types of pycdf.const. *)
Inductive cdf_type :=
| CDF_BYTE | CDF_CHAR | CDF_UCHAR
| CDF_INT1 | CDF_INT2 | CDF_INT4 | CDF_INT8
| CDF_UINT1 | CDF_UINT2 | CDF_UINT4
| CDF_REAL4 | CDF_REAL8 | CDF_FLOAT | CDF_DOUBLE
| CDF_EPOCH | CDF_EPOCH16 | CDF_TIME_TT2000.

(** The compression kinds of pycdf.const. *)
Inductive compression :=
| NO_COMPRESSION | RLE_COMPRESSION | HUFF_COMPRESSION
| AHUFF_COMPRESSION | GZIP_COMPRESSION.

Global Instance cdf_type_eq_dec : EqDecision cdf_type.
Proof. solve_decision. Defined.

(** ** collections.OrderedDict with text keys *)

Module OrderedDict.

Definition t (V : Type) : Type := list (string * V).

Definition empty {V : Type} : t V := [].

(** [d[k]], [None] when the key is absent. *)
Fixpoint get {V : Type} (k : string) (d : t V) : option V :=
  match d with
  | [] => None
  | (k', v) :: d' => if decide (k' = k) then Some v else get k d'
  end.

(** [d[k] = v]: a present key keeps its place, a new key goes last. *)
Fixpoint set {V : Type} (k : string) (v : V) (d : t V) : t V :=
  match d with
  | [] => [(k, v)]
  | (k', v') :: d' =>
      if decide (k' = k) then (k, v) :: d' else (k', v') :: set k v d'
  end.

(** [d.items()] *)
Definition items {V : Type} (d : t V) : list (string * V) := d.

End OrderedDict.

(** ** The writer object and the world around it *)

(** An entry of [_variables] (the dict built by [addVariable]). *)
Record variable := mk_variable {
  v_name : string;
  v_dataType : cdf_type;
  v_sizes : option (list Z);
  v_dimVariances : option (list bool);
  v_variance : bool;
  v_num_elements : Z;
  v_compression : compression;
  v_compression_param : Z
}.

(** An entry of [_constants] (the dict built by [addConstant]). *)
Record constant := mk_constant {
  c_name : string;
  c_dataType : cdf_type;
  c_sizes : list Z
}.

(** The attributes of a [CDFWriter].  [_cdf], the backend handle, is known by
    the path it was opened on.  An entry of [_constantData] is a Python list
    that is created with one payload and only ever appended to: it is kept as
    its first payload and the later ones. *)
Record CDFWriter := mk_CDFWriter {
  _prefix : string;
  _outputDirectory : string;
  _cdf_temp_name : string;
  _cdf : string;
  _last_cdf_filename : option string;
  _version : string;
  _doNotSplit : bool;
  _boundary : timedelta;
  _variables : list variable;
  _constants : list constant;
  _global_attrs : OrderedDict.t attr_value;
  _variable_attrs : gmap string (OrderedDict.t attr_value);
  _firstTime : option pydata;
  _lastTime : option pydata;
  _data : gmap string pydata;
  _constantData : gmap string (pydata * list pydata)
}.

(** A call that leaves the program: into the backend, into the file system, or
    to standard output. *)
Inductive event :=
| CDF_set_backward (flag : bool)
| CDF_open (path : string)
| CDF_attr (cdf name : string) (value : attr_value)
| CDF_new (cdf name : string) (type : cdf_type) (dims : option (list Z))
    (dimVarys : option (list bool)) (recVary : bool)
    (compress : compression) (compress_param : option Z)
| CDF_var_attr (cdf var name : string) (value : attr_value)
| CDF_var_data (cdf var : string) (data : pydata)
| CDF_close (cdf : string)
| OS_exists (path : string)
| OS_makedirs (path : string)
| OS_rename (src dst : string)
| OS_unlink (path : string)
| Stdout (text : string).

(** The world: the paths that exist, the clock, the process id, the random
    source (the draws still to come and how many were taken), and the trace of
    the calls made so far, oldest first. *)
Record World := mk_World {
  fs : gset string;
  now : datetime;
  pid : Z;
  random_source : nat → Z;
  random_pos : nat;
  trace : list event
}.

Definition with_fs (f : gset string → gset string) (w : World) : World :=
  mk_World (f (fs w)) (now w) (pid w) (random_source w) (random_pos w) (trace w).

Definition with_event (e : event) (w : World) : World :=
  mk_World (fs w) (now w) (pid w) (random_source w) (random_pos w) (trace w ++ [e]).

Definition with_draw (w : World) : World :=
  mk_World (fs w) (now w) (pid w) (random_source w) (S (random_pos w)) (trace w).

(** Assignments to the attributes of the object. *)
Definition set_prefix (x : string) (s : CDFWriter) : CDFWriter :=
  mk_CDFWriter x (_outputDirectory s) (_cdf_temp_name s) (_cdf s)
    (_last_cdf_filename s) (_version s) (_doNotSplit s) (_boundary s)
    (_variables s) (_constants s) (_global_attrs s) (_variable_attrs s)
    (_firstTime s) (_lastTime s) (_data s) (_constantData s).

Definition set_outputDirectory (x : string) (s : CDFWriter) : CDFWriter :=
  mk_CDFWriter (_prefix s) x (_cdf_temp_name s) (_cdf s)
    (_last_cdf_filename s) (_version s) (_doNotSplit s) (_boundary s)
    (_variables s) (_constants s) (_global_attrs s) (_variable_attrs s)
    (_firstTime s) (_lastTime s) (_data s) (_constantData s).

Definition set_cdf_temp_name (x : string) (s : CDFWriter) : CDFWriter :=
  mk_CDFWriter (_prefix s) (_outputDirectory s) x (_cdf s)
    (_last_cdf_filename s) (_version s) (_doNotSplit s) (_boundary s)
    (_variables s) (_constants s) (_global_attrs s) (_variable_attrs s)
    (_firstTime s) (_lastTime s) (_data s) (_constantData s).

Definition set_cdf (x : string) (s : CDFWriter) : CDFWriter :=
  mk_CDFWriter (_prefix s) (_outputDirectory s) (_cdf_temp_name s) x
    (_last_cdf_filename s) (_version s) (_doNotSplit s) (_boundary s)
    (_variables s) (_constants s) (_global_attrs s) (_variable_attrs s)
    (_firstTime s) (_lastTime s) (_data s) (_constantData s).

Definition set_last_cdf_filename (x : option string) (s : CDFWriter) : CDFWriter :=
  mk_CDFWriter (_prefix s) (_outputDirectory s) (_cdf_temp_name s) (_cdf s)
    x (_version s) (_doNotSplit s) (_boundary s)
    (_variables s) (_constants s) (_global_attrs s) (_variable_attrs s)
    (_firstTime s) (_lastTime s) (_data s) (_constantData s).

Definition set_version (x : string) (s : CDFWriter) : CDFWriter :=
  mk_CDFWriter (_prefix s) (_outputDirectory s) (_cdf_temp_name s) (_cdf s)
    (_last_cdf_filename s) x (_doNotSplit s) (_boundary s)
    (_variables s) (_constants s) (_global_attrs s) (_variable_attrs s)
    (_firstTime s) (_lastTime s) (_data s) (_constantData s).

Definition set_doNotSplit (x : bool) (s : CDFWriter) : CDFWriter :=
  mk_CDFWriter (_prefix s) (_outputDirectory s) (_cdf_temp_name s) (_cdf s)
    (_last_cdf_filename s) (_version s) x (_boundary s)
    (_variables s) (_constants s) (_global_attrs s) (_variable_attrs s)
    (_firstTime s) (_lastTime s) (_data s) (_constantData s).

Definition set_boundary (x : timedelta) (s : CDFWriter) : CDFWriter :=
  mk_CDFWriter (_prefix s) (_outputDirectory s) (_cdf_temp_name s) (_cdf s)
    (_last_cdf_filename s) (_version s) (_doNotSplit s) x
    (_variables s) (_constants s) (_global_attrs s) (_variable_attrs s)
    (_firstTime s) (_lastTime s) (_data s) (_constantData s).

Definition set_variables (x : list variable) (s : CDFWriter) : CDFWriter :=
  mk_CDFWriter (_prefix s) (_outputDirectory s) (_cdf_temp_name s) (_cdf s)
    (_last_cdf_filename s) (_version s) (_doNotSplit s) (_boundary s)
    x (_constants s) (_global_attrs s) (_variable_attrs s)
    (_firstTime s) (_lastTime s) (_data s) (_constantData s).

Definition set_constants (x : list constant) (s : CDFWriter) : CDFWriter :=
  mk_CDFWriter (_prefix s) (_outputDirectory s) (_cdf_temp_name s) (_cdf s)
    (_last_cdf_filename s) (_version s) (_doNotSplit s) (_boundary s)
    (_variables s) x (_global_attrs s) (_variable_attrs s)
    (_firstTime s) (_lastTime s) (_data s) (_constantData s).

Definition set_global_attrs (x : OrderedDict.t attr_value) (s : CDFWriter) : CDFWriter :=
  mk_CDFWriter (_prefix s) (_outputDirectory s) (_cdf_temp_name s) (_cdf s)
    (_last_cdf_filename s) (_version s) (_doNotSplit s) (_boundary s)
    (_variables s) (_constants s) x (_variable_attrs s)
    (_firstTime s) (_lastTime s) (_data s) (_constantData s).

Definition set_variable_attrs (x : gmap string (OrderedDict.t attr_value))
    (s : CDFWriter) : CDFWriter :=
  mk_CDFWriter (_prefix s) (_outputDirectory s) (_cdf_temp_name s) (_cdf s)
    (_last_cdf_filename s) (_version s) (_doNotSplit s) (_boundary s)
    (_variables s) (_constants s) (_global_attrs s) x
    (_firstTime s) (_lastTime s) (_data s) (_constantData s).

Definition set_firstTime (x : option pydata) (s : CDFWriter) : CDFWriter :=
  mk_CDFWriter (_prefix s) (_outputDirectory s) (_cdf_temp_name s) (_cdf s)
    (_last_cdf_filename s) (_version s) (_doNotSplit s) (_boundary s)
    (_variables s) (_constants s) (_global_attrs s) (_variable_attrs s)
    x (_lastTime s) (_data s) (_constantData s).

Definition set_lastTime (x : option pydata) (s : CDFWriter) : CDFWriter :=
  mk_CDFWriter (_prefix s) (_outputDirectory s) (_cdf_temp_name s) (_cdf s)
    (_last_cdf_filename s) (_version s) (_doNotSplit s) (_boundary s)
    (_variables s) (_constants s) (_global_attrs s) (_variable_attrs s)
    (_firstTime s) x (_data s) (_constantData s).

Definition set_data (x : gmap string pydata) (s : CDFWriter) : CDFWriter :=
  mk_CDFWriter (_prefix s) (_outputDirectory s) (_cdf_temp_name s) (_cdf s)
    (_last_cdf_filename s) (_version s) (_doNotSplit s) (_boundary s)
    (_variables s) (_constants s) (_global_attrs s) (_variable_attrs s)
    (_firstTime s) (_lastTime s) x (_constantData s).

Definition set_constantData (x : gmap string (pydata * list pydata))
    (s : CDFWriter) : CDFWriter :=
  mk_CDFWriter (_prefix s) (_outputDirectory s) (_cdf_temp_name s) (_cdf s)
    (_last_cdf_filename s) (_version s) (_doNotSplit s) (_boundary s)
    (_variables s) (_constants s) (_global_attrs s) (_variable_attrs s)
    (_firstTime s) (_lastTime s) (_data s) x.

(** ** Methods as computations *)

(** How a call ends. *)
Inductive outcome (A : Type) :=
| Returned (a : A)
| Raised (e : exn)
| Aborted.

Arguments Returned {A} a.
Arguments Raised {A} e.
Arguments Aborted {A}.

(** A computation runs on the object and the world and gives back both,
    whatever way it ends. *)
Definition M (A : Type) : Type := CDFWriter → World → outcome A * CDFWriter * World.

Definition ret {A : Type} (a : A) : M A := λ s w, (Returned a, s, w).

Definition bind {A B : Type} (m : M A) (k : A → M B) : M B :=
  λ s w,
    match m s w with
    | (Returned a, s', w') => k a s' w'
    | (Raised e, s', w') => (Raised e, s', w')
    | (Aborted, s', w') => (Aborted, s', w')
    end.

Declare Scope py_scope.
Delimit Scope py_scope with py.
Notation "x <- m ;; k" := (bind m (λ x, k))
  (at level 100, m at next level, right associativity) : py_scope.
Notation "m ;; k" := (bind m (λ _, k))
  (at level 100, right associativity) : py_scope.
Local Open Scope py_scope.

Definition raise {A : Type} (e : exn) : M A := λ s w, (Raised e, s, w).

(** [os.abort()] *)
Definition os_abort {A : Type} : M A := λ s w, (Aborted, s, w).

Definition self : M CDFWriter := λ s w, (Returned s, s, w).

Definition assign (f : CDFWriter → CDFWriter) : M unit :=
  λ s w, (Returned (), f s, w).

Definition world : M World := λ s w, (Returned w, s, w).

Definition emit (e : event) : M unit := λ s w, (Returned (), s, with_event e w).

Definition change_fs (f : gset string → gset string) : M unit :=
  λ s w, (Returned (), s, with_fs f w).

(** [for x in xs: body(x)] *)
Fixpoint for_each {A : Type} (xs : list A) (body : A → M unit) : M unit :=
  match xs with
  | [] => ret ()
  | x :: xs' => body x ;; for_each xs' body
  end.

(** [if c: body] *)
Definition when (c : bool) (body : M unit) : M unit :=
  if c then body else ret ().

(** [print(text)] *)
Definition print (text : string) : M unit := emit (Stdout text).

(** [os.path.exists(path)] *)
Definition os_path_exists (path : string) : M bool :=
  emit (OS_exists path) ;;
  w <- world ;;
  ret (bool_decide (path ∈ fs w)).

(** [os.makedirs(path)] *)
Definition os_makedirs (path : string) : M unit :=
  emit (OS_makedirs path) ;;
  change_fs (λ paths, paths ∪ {[path]}).

(** [os.rename(src, dst)] *)
Definition os_rename (src dst : string) : M unit :=
  emit (OS_rename src dst) ;;
  w <- world ;;
  if bool_decide (src ∈ fs w)
  then change_fs (λ paths, (paths ∖ {[src]}) ∪ {[dst]})
  else raise (FileNotFoundError src).

(** [os.unlink(path)] *)
Definition os_unlink (path : string) : M unit :=
  emit (OS_unlink path) ;;
  w <- world ;;
  if bool_decide (path ∈ fs w)
  then change_fs (λ paths, paths ∖ {[path]})
  else raise (FileNotFoundError path).

(** [os.getpid()] *)
Definition os_getpid : M Z := w <- world ;; ret (pid w).

(** [random.randint(lo, hi)]: the next draw, brought into [lo..hi]. *)
Definition random_randint (lo hi : Z) : M Z :=
  λ s w,
    (Returned (lo + random_source w (random_pos w) `mod` (hi - lo + 1))%Z,
     s, with_draw w).

(** [datetime.datetime.now()] *)
Definition datetime_now : M datetime := w <- world ;; ret (now w).

(** [pycdf.CDF(path, '')]: a new, empty container at [path]. *)
Definition pycdf_CDF (path : string) : M string :=
  emit (CDF_open path) ;;
  change_fs (λ paths, paths ∪ {[path]}) ;;
  ret path.

(** ** Operations of the interpreter on payloads *)

(** [times[0]] *)
Definition py_first (times : list pydata) : M pydata :=
  match times with
  | [] => raise (IndexError "list index out of range")
  | t :: _ => ret t
  end.

(** [times[-1]] *)
Definition py_last (times : list pydata) : M pydata :=
  match last times with
  | None => raise (IndexError "list index out of range")
  | Some t => ret t
  end.

(** [x.strftime(fmt)]: only a datetime has the method. *)
Definition py_strftime (x : pydata) (fmt : string) : M string :=
  match x with
  | DTime t => ret (datetime.strftime t fmt)
  | _ => raise (AttributeError
           ("'" +:+ type_name (Some x) +:+ "' object has no attribute 'strftime'"))
  end.

(** [stored.append(data)]: only a list has the method. *)
Definition py_append (stored data : pydata) : M pydata :=
  match stored with
  | DSeq items => ret (DSeq (items ++ [data]))
  | _ => raise (AttributeError
           ("'" +:+ type_name (Some stored) +:+ "' object has no attribute 'append'"))
  end.

(** [a - b >= boundary] for a timedelta [boundary]: two datetimes give a
    timedelta, which is compared; two numbers give a number, which cannot be
    compared with a timedelta; nothing else can be subtracted. *)
Definition py_span_reached (a b : option pydata) (boundary : timedelta) : M bool :=
  match a, b with
  | Some (DTime x), Some (DTime y) => ret (boundary <=? datetime.sub x y)%Z
  | Some (DInt _), Some (DInt _) =>
      raise (TypeError
        "'>=' not supported between instances of 'int' and 'datetime.timedelta'")
  | Some (DInt _), Some (DFloat _ _)
  | Some (DFloat _ _), Some (DInt _)
  | Some (DFloat _ _), Some (DFloat _ _) =>
      raise (TypeError
        "'>=' not supported between instances of 'float' and 'datetime.timedelta'")
  | _, _ =>
      raise (TypeError
        ("unsupported operand type(s) for -: '" +:+ type_name a
         +:+ "' and '" +:+ type_name b +:+ "'"))
  end.

(** ** The methods of CDFWriter *)

(** The object before [__init__] has run. *)
Definition blank : CDFWriter :=
  mk_CDFWriter "" "" "" "" None "" false 0%Z [] [] OrderedDict.empty ∅ None None ∅ ∅.

(** [outputdir + '__tmp' + str(os.getpid()) + '_' + str(random.randint(1, 65535)) + '.cdf'] *)
Definition new_temp_name (outputdir : string) : M string :=
  p <- os_getpid ;;
  r <- random_randint 1 65535 ;;
  ret (outputdir +:+ "__tmp" +:+ pretty p +:+ "_" +:+ pretty r +:+ ".cdf").

Definition __init__ (prefix outputdir : string) : M unit :=
  assign (set_prefix prefix) ;;
  emit (CDF_set_backward false) ;;
  let outputdir :=
    if PyStr.ends_with_separator outputdir then outputdir else outputdir +:+ "/" in
  assign (set_outputDirectory outputdir) ;;
  present <- os_path_exists outputdir ;;
  when (negb present) (os_makedirs outputdir) ;;
  temp <- new_temp_name outputdir ;;
  assign (set_cdf_temp_name temp) ;;
  handle <- pycdf_CDF temp ;;
  assign (set_cdf handle) ;;
  assign (set_last_cdf_filename None) ;;
  assign (set_version "0.0.0") ;;
  assign (set_doNotSplit true) ;;
  assign (set_boundary (datetime.hours 6)) ;;
  assign (set_variables []) ;;
  assign (set_constants []) ;;
  assign (set_global_attrs OrderedDict.empty) ;;
  assign (set_variable_attrs ∅) ;;
  assign (set_firstTime None) ;;
  assign (set_lastTime None) ;;
  assign (set_data ∅) ;;
  assign (set_constantData ∅).

Definition addGlobalAttribute (name : string) (value : attr_value) : M unit :=
  assign (λ s, set_global_attrs (OrderedDict.set name value (_global_attrs s)) s).

Definition addVariableAttribute (attribute_name variable_name : string)
    (value : attr_value) : M unit :=
  s <- self ;;
  when (bool_decide (_variable_attrs s !! variable_name = None))
    (assign (λ s, set_variable_attrs
                    (<[variable_name := OrderedDict.empty]> (_variable_attrs s)) s)) ;;
  assign (λ s, set_variable_attrs
                 (alter (OrderedDict.set attribute_name value) variable_name
                    (_variable_attrs s)) s).

Definition addVariable (name : string) (dataType : cdf_type)
    (sizes : option (list Z)) (dimVariances : option (list bool))
    (variance : bool) (num_elements : Z)
    (compression : compression) (compression_param : Z) : M unit :=
  assign (λ s, set_variables
                 (_variables s ++
                  [mk_variable name dataType sizes dimVariances variance
                     num_elements compression compression_param]) s).

Definition addVariableData (variable_name : string) (data : pydata)
    (all_values : bool) : M unit :=
  s <- self ;;
  let list_of_all_variables := map v_name (_variables s) in
  if negb (bool_decide (variable_name ∈ list_of_all_variables)) then
    raise (ValueError ("variable_name " +:+ variable_name +:+ " must be one of "
                       +:+ PyStr.repr_names list_of_all_variables))
  else
    when (bool_decide (variable_name = "Epoch"))
      (let times := match data with DSeq items => items | _ => [data] end in
       s <- self ;;
       when (bool_decide (_firstTime s = None))
         (first <- py_first times ;; assign (set_firstTime (Some first))) ;;
       final <- py_last times ;;
       assign (set_lastTime (Some final))) ;;
    s <- self ;;
    if all_values then
      (if bool_decide (_data s !! variable_name = None) then ret ()
       else raise AssertionError) ;;
      assign (λ s, set_data (<[variable_name := data]> (_data s)) s)
    else
      match _data s !! variable_name with
      | None => assign (λ s, set_data (<[variable_name := DSeq [data]]> (_data s)) s)
      | Some stored =>
          grown <- py_append stored data ;;
          assign (λ s, set_data (<[variable_name := grown]> (_data s)) s)
      end.

Definition addConstant (name : string) (dataType : cdf_type) (sizes : list Z) : M unit :=
  assign (λ s, set_constants (_constants s ++ [mk_constant name dataType sizes]) s).

Definition addConstantData (constant_name : string) (data : pydata) : M unit :=
  s <- self ;;
  let list_of_all_constants := map c_name (_constants s) in
  if negb (bool_decide (constant_name ∈ list_of_all_constants)) then
    raise (ValueError ("constant_name " +:+ constant_name +:+ " must be one of "
                       +:+ PyStr.repr_names list_of_all_constants))
  else
    match _constantData s !! constant_name with
    | None =>
        assign (λ s, set_constantData (<[constant_name := (data, [])]> (_constantData s)) s)
    | Some (first, later) =>
        assign (λ s, set_constantData
                       (<[constant_name := (first, later ++ [data])]> (_constantData s)) s)
    end.

(** The write pipeline: global attributes, then every constant, then every
    variable, each with its attributes and its data when it has any. *)
Definition _writeData : M unit :=
  s <- self ;;
  for_each (OrderedDict.items (_global_attrs s))
    (λ '(name, value), emit (CDF_attr (_cdf s) name value)) ;;
  for_each (_constants s) (λ constant,
    emit (CDF_new (_cdf s) (c_name constant) (c_dataType constant)
            (Some (c_sizes constant)) None false NO_COMPRESSION None) ;;
    match _variable_attrs s !! c_name constant with
    | Some attrs =>
        for_each (OrderedDict.items attrs)
          (λ '(name, value), emit (CDF_var_attr (_cdf s) (c_name constant) name value))
    | None => ret ()
    end ;;
    match _constantData s !! c_name constant with
    | Some (first, _) => emit (CDF_var_data (_cdf s) (c_name constant) first)
    | None => ret ()
    end) ;;
  for_each (_variables s) (λ variable,
    emit (CDF_new (_cdf s) (v_name variable) (v_dataType variable)
            (v_sizes variable) (v_dimVariances variable) (v_variance variable)
            (v_compression variable) (Some (v_compression_param variable))) ;;
    match _variable_attrs s !! v_name variable with
    | Some attrs =>
        for_each (OrderedDict.items attrs)
          (λ '(name, value), emit (CDF_var_attr (_cdf s) (v_name variable) name value))
    | None => ret ()
    end ;;
    match _data s !! v_name variable with
    | Some payload => emit (CDF_var_data (_cdf s) (v_name variable) payload)
    | None => ret ()
    end).

Definition close : M unit :=
  today <- datetime_now ;;
  addGlobalAttribute "Generation_date" (AStr (datetime.strftime today "%Y%m%d")) ;;
  s <- self ;;
  addGlobalAttribute "Data_version" (AStr ("v" +:+ _version s)) ;;
  addGlobalAttribute "Logical_source" (AStr (_prefix s)) ;;
  new_filename <-
    match _firstTime s with
    | Some first =>
        stamp <- py_strftime first "%Y%m%d%H%M00" ;;
        addGlobalAttribute "Logical_file_id" (AStr (_prefix s +:+ "_" +:+ stamp)) ;;
        ret (_prefix s +:+ "_" +:+ stamp +:+ "_v" +:+ _version s +:+ ".cdf")
    | None => ret (_prefix s +:+ "_v" +:+ _version s +:+ ".cdf")
    end ;;
  when (negb (bool_decide (_data s = ∅))) _writeData ;;
  emit (CDF_close (_cdf s)) ;;
  present <- os_path_exists (_outputDirectory s +:+ new_filename) ;;
  (if present then
     raise (RuntimeError [_outputDirectory s +:+ new_filename; "already exists!"])
   else os_rename (_cdf_temp_name s) (_outputDirectory s +:+ new_filename)) ;;
  (if bool_decide (_data s = ∅) then os_unlink (_outputDirectory s +:+ new_filename)
   else assign (set_last_cdf_filename (Some new_filename))) ;;
  assign (set_data ∅) ;;
  assign (set_firstTime None) ;;
  assign (set_lastTime None).

Definition makeNewFile : M unit :=
  close ;;
  s <- self ;;
  temp <- new_temp_name (_outputDirectory s) ;;
  assign (set_cdf_temp_name temp) ;;
  handle <- pycdf_CDF temp ;;
  assign (set_cdf handle).

Definition closeRecord : M unit :=
  s <- self ;;
  if _doNotSplit s then ret ()
  else
    reached <- py_span_reached (_lastTime s) (_firstTime s) (_boundary s) ;;
    when reached makeNewFile.

Definition setVersionNumber (version : string) : M unit :=
  let versionNumbersList := PyStr.split "." version in
  let numLevels := length versionNumbersList in
  if bool_decide (numLevels ≠ 3) then
    raise (ValueError "version should have 3 levels (e.g. 4.2.0)")
  else
    for_each versionNumbersList (λ vpart,
      let goodVal := PyStr.isdigit vpart in
      if negb goodVal then raise (TypeError "each level must consist only of integers")
      else ret ()) ;;
    assign (set_version version).

Definition setOutputDirectory (outputDirectory : string) : M unit :=
  let outputDirectory :=
    if PyStr.ends_with_separator outputDirectory then outputDirectory
    else outputDirectory +:+ "/" in
  assign (set_outputDirectory outputDirectory) ;;
  present <- os_path_exists outputDirectory ;;
  when (negb present) (os_makedirs outputDirectory).

Definition setDoNotSplit (doNotSplit : bool) (boundary : timedelta) : M unit :=
  assign (set_doNotSplit doNotSplit) ;;
  assign (set_boundary boundary).

Definition getLastCDFFilename : M (option string) :=
  s <- self ;; ret (_last_cdf_filename s).

Definition addSupportVariableAttributes (variable_name short_description
    long_description units_string format_string : string)
    (validmin validmax : attr_value) (lablaxis si_conversion scaleType : string)
    : M unit :=
  addVariableAttribute "FIELDNAM" variable_name (AStr short_description) ;;
  addVariableAttribute "VALIDMIN" variable_name validmin ;;
  addVariableAttribute "VALIDMAX" variable_name validmax ;;
  let units_string :=
    if bool_decide (String.length units_string = 0) then "unitless" else units_string in
  addVariableAttribute "UNITS" variable_name (AStr units_string) ;;
  addVariableAttribute "FORMAT" variable_name (AStr format_string) ;;
  addVariableAttribute "CATDESC" variable_name (AStr long_description) ;;
  addVariableAttribute "VAR_TYPE" variable_name (AStr "support_data") ;;
  addVariableAttribute "SI_CONVERSION" variable_name (AStr si_conversion) ;;
  addVariableAttribute "LABLAXIS" variable_name (AStr lablaxis) ;;
  addVariableAttribute "SCALETYP" variable_name (AStr scaleType).

Definition addPlotVariableAttributes (variable_name short_description
    long_description display_type units_string format_string lablaxis : string)
    (dataType : option cdf_type) (validmin validmax : attr_value)
    (scaleType : string) (addFill : bool) : M unit :=
  addVariableAttribute "FIELDNAM" variable_name (AStr short_description) ;;
  addVariableAttribute "VALIDMIN" variable_name validmin ;;
  addVariableAttribute "VALIDMAX" variable_name validmax ;;
  addVariableAttribute "LABLAXIS" variable_name (AStr lablaxis) ;;
  when addFill
    (if bool_decide (dataType = Some CDF_DOUBLE) then
       addVariableAttribute "FILLVAL" variable_name (AFloat 1 31)
     else if bool_decide (dataType = Some CDF_FLOAT) then
       addVariableAttribute "FILLVAL" variable_name (AFloat 1 31)
     else if bool_decide (dataType = Some CDF_UINT1) then
       addVariableAttribute "FILLVAL" variable_name (AInt 255)
     else if bool_decide (dataType = Some CDF_UINT2) then
       addVariableAttribute "FILLVAL" variable_name (AInt 65535)
     else if bool_decide (dataType = Some CDF_INT4) then
       addVariableAttribute "FILLVAL" variable_name (AInt 1)
     else if bool_decide (dataType = Some CDF_UINT4) then
       addVariableAttribute "FILLVAL" variable_name (AInt (-1))
     else
       print ("For " +:+ variable_name +:+ " data_type must be one of "
              +:+ "('CDF_DOUBLE', 'CDF_FLOAT', 'CDF_UINT1', 'CDF_UINT2', 'CDF_UINT1', 'CDF_INT4')") ;;
       os_abort) ;;
  addVariableAttribute "SCALETYP" variable_name (AStr scaleType) ;;
  addVariableAttribute "UNITS" variable_name (AStr units_string) ;;
  addVariableAttribute "FORMAT" variable_name (AStr format_string) ;;
  addVariableAttribute "CATDESC" variable_name (AStr long_description) ;;
  addVariableAttribute "VAR_TYPE" variable_name (AStr "data") ;;
  addVariableAttribute "DISPLAY_TYPE" variable_name (AStr display_type) ;;
  addVariableAttribute "SI_CONVERSION" variable_name (AStr " > ") ;;
  addVariableAttribute "DEPEND_0" variable_name (AStr "Epoch") ;;
  addVariableAttribute "COORDINATE_SYSTEM" variable_name (AStr "BCS").

(** ** Vocabulary of the properties *)

(** *** Version strings *)

(** [c] is one of the ten decimal digits. *)
Definition decimal_digit (c : ascii) : Prop :=
  ∃ n : nat, n < 10 ∧ c = ascii_of_nat (48 + n).

(** [s] is a numeral: one decimal digit or more, and nothing else. *)
Inductive numeral : string → Prop :=
| numeral_one (c : ascii) : decimal_digit c → numeral (String c "")
| numeral_more (c : ascii) (s : string) :
    decimal_digit c → numeral s → numeral (String c s).

(** [v] is three numerals with a dot between them, n.n.n. *)
Definition version_format (v : string) : Prop :=
  ∃ a b c, numeral a ∧ numeral b ∧ numeral c ∧ v = a +:+ "." +:+ b +:+ "." +:+ c.


(** *** Results, attributes, traces *)

Definition outcome_of {A : Type} (r : outcome A * CDFWriter * World) : outcome A := r.1.1.
Definition object_of {A : Type} (r : outcome A * CDFWriter * World) : CDFWriter := r.1.2.
Definition world_of {A : Type} (r : outcome A * CDFWriter * World) : World := r.2.

(** The value of attribute [attribute_name] of variable [variable_name]. *)
Definition var_attr (s : CDFWriter) (variable_name attribute_name : string)
    : option attr_value :=
  match _variable_attrs s !! variable_name with
  | Some attrs => OrderedDict.get attribute_name attrs
  | None => None
  end.

(** The value of the global attribute [name]. *)
Definition global_attr (s : CDFWriter) (name : string) : option attr_value :=
  OrderedDict.get name (_global_attrs s).

(** The object after [self._variable_attrs[variable_name][attribute_name] = value],
    the entry of the variable made first when it is missing. *)
Definition with_var_attr (attribute_name variable_name : string) (value : attr_value)
    (s : CDFWriter) : CDFWriter :=
  set_variable_attrs
    (<[variable_name :=
         OrderedDict.set attribute_name value
           (default OrderedDict.empty (_variable_attrs s !! variable_name))]>
       (_variable_attrs s)) s.

(** The table of fill values: the element types that have one, and it. *)
Definition fill_table (type : cdf_type) : option attr_value :=
  match type with
  | CDF_DOUBLE => Some (AFloat 1 31)
  | CDF_FLOAT => Some (AFloat 1 31)
  | CDF_UINT1 => Some (AInt 255)
  | CDF_UINT2 => Some (AInt 65535)
  | CDF_INT4 => Some (AInt 1)
  | CDF_UINT4 => Some (AInt (-1))
  | _ => None
  end.

Definition with_events (evs : list event) (w : World) : World :=
  mk_World (fs w) (now w) (pid w) (random_source w) (random_pos w) (trace w ++ evs).

(** The calls made from world [w] to the later world [w']. *)
Definition since (w w' : World) : list event := drop (length (trace w)) (trace w').






(** The head of the plot-variable builder: the four attributes it sets before
    it comes to the fill value. *)
Definition plot_attributes_head (variable_name short_description lablaxis : string)
    (validmin validmax : attr_value) (s : CDFWriter) : CDFWriter :=
  with_var_attr "LABLAXIS" variable_name (AStr lablaxis)
    (with_var_attr "VALIDMAX" variable_name validmax
    (with_var_attr "VALIDMIN" variable_name validmin
    (with_var_attr "FIELDNAM" variable_name (AStr short_description) s))).

(** *** Appends to the time variable *)

(** The time stamps a payload carries: its items when it is a sequence,
    itself when it is a bare value. *)
Definition stamps (data : pydata) : list pydata :=
  match data with DSeq items => items | _ => [data] end.

(** A call [addVariableData(name, data, all_values)]. *)
Record append_call := mk_call {
  call_name : string;
  call_data : pydata;
  call_all_values : bool
}.

(** The calls one after the other, the caller going on after a call that
    raised. *)
Fixpoint run_calls (calls : list append_call) (s : CDFWriter) (w : World)
    : CDFWriter * World :=
  match calls with
  | [] => (s, w)
  | c :: calls' =>
      let r := addVariableData (call_name c) (call_data c) (call_all_values c) s w in
      run_calls calls' (object_of r) (world_of r)
  end.

(** The time stamps the calls hand to the time variable, in call order. *)
Definition epoch_stamps (calls : list append_call) : list pydata :=
  flat_map (λ c, if decide (call_name c = "Epoch") then stamps (call_data c) else [])
    calls.

(** *** Seals *)

(** The object once [close] has set the three global attributes of every
    seal. *)
Definition stamped (s : CDFWriter) (w : World) : CDFWriter :=
  set_global_attrs
    (OrderedDict.set "Logical_source" (AStr (_prefix s))
       (OrderedDict.set "Data_version" (AStr ("v" +:+ _version s))
          (OrderedDict.set "Generation_date"
             (AStr (datetime.strftime (now w) "%Y%m%d")) (_global_attrs s))))
    s.

(** The object once [close] has set all its global attributes: Logical_file_id
    too when the first time stamp is a datetime. *)
Definition labelled (s : CDFWriter) (w : World) : CDFWriter :=
  match _firstTime s with
  | Some (DTime t) =>
      set_global_attrs
        (OrderedDict.set "Logical_file_id"
           (AStr (_prefix s +:+ "_" +:+ datetime.strftime t "%Y%m%d%H%M00"))
           (_global_attrs (stamped s w)))
        (stamped s w)
  | _ => stamped s w
  end.

(** The file name [close] computes, when it gets to compute one: a first time
    stamp that is no datetime has no [strftime]. *)
Definition permanent_name (s : CDFWriter) : option string :=
  match _firstTime s with
  | None => Some (_prefix s +:+ "_v" +:+ _version s +:+ ".cdf")
  | Some (DTime t) =>
      Some (_prefix s +:+ "_" +:+ datetime.strftime t "%Y%m%d%H%M00"
            +:+ "_v" +:+ _version s +:+ ".cdf")
  | Some _ => None
  end.

(** The calls of the write pipeline, in order. *)
Definition attr_events (cdf var : string) (attrs : option (OrderedDict.t attr_value))
    : list event :=
  match attrs with
  | Some attrs => map (λ '(name, value), CDF_var_attr cdf var name value) attrs
  | None => []
  end.

Definition constant_events (s : CDFWriter) (c : constant) : list event :=
  CDF_new (_cdf s) (c_name c) (c_dataType c) (Some (c_sizes c)) None false
    NO_COMPRESSION None
  :: attr_events (_cdf s) (c_name c) (_variable_attrs s !! c_name c)
  ++ match _constantData s !! c_name c with
     | Some (first, _) => [CDF_var_data (_cdf s) (c_name c) first]
     | None => []
     end.

Definition variable_events (s : CDFWriter) (v : variable) : list event :=
  CDF_new (_cdf s) (v_name v) (v_dataType v) (v_sizes v) (v_dimVariances v)
    (v_variance v) (v_compression v) (Some (v_compression_param v))
  :: attr_events (_cdf s) (v_name v) (_variable_attrs s !! v_name v)
  ++ match _data s !! v_name v with
     | Some payload => [CDF_var_data (_cdf s) (v_name v) payload]
     | None => []
     end.

Definition write_events (s : CDFWriter) : list event :=
  map (λ '(name, value), CDF_attr (_cdf s) name value) (_global_attrs s)
  ++ flat_map (constant_events s) (_constants s)
  ++ flat_map (variable_events s) (_variables s).

(** The object after the three resets that end a seal. *)
Definition reset (s : CDFWriter) : CDFWriter :=
  set_lastTime None (set_firstTime None (set_data ∅ s)).

(** [close] from the write pipeline on, for the file name [new_filename],
    written out case by case. *)
Definition seal (new_filename : string) (s : CDFWriter) (w : World)
    : outcome unit * CDFWriter * World :=
  let path := _outputDirectory s +:+ new_filename in
  let temp := _cdf_temp_name s in
  let drained :=
    with_events
      ((if bool_decide (_data s = ∅) then [] else write_events s)
       ++ [CDF_close (_cdf s); OS_exists path]) w in
  if bool_decide (path ∈ fs w) then
    (Raised (RuntimeError [path; "already exists!"]), s, drained)
  else if bool_decide (temp ∈ fs w) then
    let moved :=
      with_fs (λ paths, (paths ∖ {[temp]}) ∪ {[path]})
        (with_events [OS_rename temp path] drained) in
    if bool_decide (_data s = ∅) then
      (Returned (), reset s,
       with_fs (λ paths, paths ∖ {[path]}) (with_events [OS_unlink path] moved))
    else (Returned (), reset (set_last_cdf_filename (Some new_filename) s), moved)
  else
    (Raised (FileNotFoundError temp), s, with_events [OS_rename temp path] drained).


(** The second half of [makeNewFile]: a new temporary name from the process
    id and the next random draw, and a new container opened on it. *)
Definition reopen (s : CDFWriter) (w : World) : outcome unit * CDFWriter * World :=
  let temp :=
    _outputDirectory s +:+ "__tmp" +:+ pretty (pid w) +:+ "_"
    +:+ pretty (1 + random_source w (random_pos w) `mod` 65535)%Z +:+ ".cdf" in
  (Returned (), set_cdf temp (set_cdf_temp_name temp s),
   with_fs (λ paths, paths ∪ {[temp]}) (with_events [CDF_open temp] (with_draw w))).


(** *** The split policy *)


(** *** Sessions to try the properties on *)

(** The object and the world a computation ends in. *)
Definition after {A : Type} (m : M A) (sw : CDFWriter * World) : CDFWriter * World :=
  (object_of (m sw.1 sw.2), world_of (m sw.1 sw.2)).

(** A world with an empty file system. *)
Definition empty_world : World :=
  mk_World ∅ (datetime.mk 2024 6 1 12 0 0 0) 4242 (λ _, 7%Z) 0 [].


(** A new writer. *)
Definition probe_new : CDFWriter * World :=
  after (__init__ "probeA" "out") (blank, empty_world).


(** The writer with its schema declared, a constant set, and no record yet. *)
Definition probe_declared : CDFWriter * World :=
  after (setVersionNumber "1.0.0" ;;
         addConstant "Instrument_ID" CDF_INT4 [] ;;
         addConstantData "Instrument_ID" (DInt 42) ;;
         addVariable "Epoch" CDF_EPOCH None None true 1 GZIP_COMPRESSION 5 ;;
         addVariable "Flux" CDF_FLOAT None None true 1 GZIP_COMPRESSION 5)
    probe_new.

(** The writer with one record. *)
Definition probe_filled : CDFWriter * World :=
  after (addVariableData "Epoch" (DTime (datetime.mk 2024 1 1 0 0 0 0)) false ;;
         addVariableData "Flux" (DFloat 314 (-2)) false)
    probe_declared.


(** Appends of every form: a bare value, a bulk sequence (refused by the
    assertion, Epoch having data already), another variable, a sequence as one
    record. *)
Definition mixed_calls : list append_call :=
  [ mk_call "Epoch" (DTime (datetime.mk 2024 1 1 0 0 0 0)) false;
    mk_call "Epoch" (DSeq [DTime (datetime.mk 2024 1 1 1 0 0 0);
                           DTime (datetime.mk 2024 1 1 2 0 0 0)]) true;
    mk_call "Flux" (DFloat 314 (-2)) false;
    mk_call "Epoch" (DSeq [DTime (datetime.mk 2024 1 1 3 0 0 0);
                           DTime (datetime.mk 2024 1 1 4 0 0 0)]) false ].

(** * Properties *)

(** ** Text *)

Module PyStrFacts.
Import PyStr.

Lemma app_nil_l (s : string) : "" +:+ s = s.
Proof. reflexivity. Qed.

Lemma app_cons (c : ascii) (s t : string) :
  String c s +:+ t = String c (s +:+ t).
Proof. reflexivity. Qed.

Lemma app_nil_r (s : string) : s +:+ "" = s.
Proof. induction s as [|c s IH]; [done|]. by rewrite app_cons, IH. Qed.

Lemma app_assoc (s t u : string) : (s +:+ t) +:+ u = s +:+ (t +:+ u).
Proof. induction s as [|c s IH]; [done|]. by rewrite !app_cons, IH. Qed.

Lemma digit_char_spec (c : ascii) : digit_char c = true ↔ decimal_digit c.
Proof.
  split.
  - intros H. exists (nat_of_ascii c - 48).
    destruct c as [[] [] [] [] [] [] [] []]; try discriminate H;
      vm_compute; split; (lia || reflexivity).
  - intros (n & Hn & ->).
    do 10 (destruct n as [|n]; [reflexivity|]). lia.
Qed.

Lemma isdigit_spec (s : string) : isdigit s = true ↔ numeral s.
Proof.
  unfold isdigit. split.
  - induction s as [|c s IH]; [done|]. simpl.
    intros [Hc Hs]%andb_true_iff. apply digit_char_spec in Hc.
    destruct s as [|d s]; [by constructor|].
    apply numeral_more; [done|]. by apply IH.
  - induction 1 as [c Hc|c s Hc _ IH]; simpl.
    + apply digit_char_spec in Hc. by rewrite Hc.
    + apply digit_char_spec in Hc. rewrite Hc. simpl.
      by destruct s.
Qed.

Lemma numeral_all_digits (s : string) : numeral s → all_digits s = true.
Proof.
  intros H. apply isdigit_spec in H. unfold isdigit in H.
  by apply andb_true_iff in H as [_ H].
Qed.

Lemma split_nonempty (sep : ascii) (s : string) : split sep s ≠ [].
Proof.
  destruct s as [|c s]; simpl; [done|].
  case_decide; [done|]. by destruct (split sep s).
Qed.

(** A piece without the separator, followed by the separator, is split off
    whole. *)
Lemma split_piece (sep : ascii) (a rest : string) :
  all_digits a = true → digit_char sep = false →
  split sep (a +:+ String sep rest) = a :: split sep rest.
Proof.
  intros Ha Hsep. induction a as [|c a IH].
  - rewrite app_nil_l. simpl. by rewrite decide_True.
  - simpl in Ha. apply andb_true_iff in Ha as [Hc Ha].
    rewrite app_cons. simpl.
    rewrite decide_False by (intros ->; congruence).
    by rewrite IH.
Qed.

(** A piece without the separator is one piece. *)
Lemma split_last_piece (sep : ascii) (a : string) :
  all_digits a = true → digit_char sep = false → split sep a = [a].
Proof.
  intros Ha Hsep. induction a as [|c a IH]; [done|].
  simpl in Ha. apply andb_true_iff in Ha as [Hc Ha]. simpl.
  rewrite decide_False by (intros ->; congruence).
  by rewrite IH.
Qed.

(** Joining the pieces with the separator gives the text back. *)
Lemma join_split (sep : ascii) (s : string) :
  join (String sep "") (split sep s) = s.
Proof.
  induction s as [|c s IH]; [done|]. simpl.
  pose proof (split_nonempty sep s) as Hne.
  destruct (split sep s) as [|piece pieces]; [done|].
  case_decide as Hc.
  - subst c. change (join (String sep "") ("" :: piece :: pieces))
      with ("" +:+ String sep "" +:+ join (String sep "") (piece :: pieces)).
    by rewrite IH.
  - destruct pieces as [|p ps].
    + simpl in *. by rewrite IH.
    + change (join (String sep "") (String c piece :: p :: ps))
        with (String c piece +:+ String sep "" +:+ join (String sep "") (p :: ps)).
      change (join (String sep "") (piece :: p :: ps))
        with (piece +:+ String sep "" +:+ join (String sep "") (p :: ps)) in IH.
      by rewrite app_cons, IH.
Qed.

(** The check of [setVersionNumber] accepts exactly the form n.n.n. *)
Lemma version_format_check (v : string) :
  version_format v ↔
  length (split "." v) = 3 ∧ forallb isdigit (split "." v) = true.
Proof.
  split.
  - intros (a & b & c & Ha & Hb & Hc & ->).
    rewrite !(app_cons "."), !app_nil_l.
    rewrite (split_piece "." a) by (by apply numeral_all_digits || done).
    rewrite (split_piece "." b) by (by apply numeral_all_digits || done).
    rewrite (split_last_piece "." c) by (by apply numeral_all_digits || done).
    split; [done|]. simpl.
    apply isdigit_spec in Ha, Hb, Hc. by rewrite Ha, Hb, Hc.
  - intros [Hlen Hall]. pose proof (join_split "." v) as Hjoin.
    destruct (split "." v) as [|a [|b [|c [|d rest]]]]; try discriminate Hlen.
    simpl in Hall. repeat (apply andb_true_iff in Hall as [? Hall]).
    exists a, b, c. rewrite !isdigit_spec in *.
    rewrite <- Hjoin. done.
Qed.

End PyStrFacts.

(** ** Computations *)

Lemma bind_returned {A B : Type} (m : M A) (k : A → M B) s w a s' w' :
  m s w = (Returned a, s', w') → bind m k s w = k a s' w'.
Proof. unfold bind. by intros ->. Qed.

Lemma bind_raised {A B : Type} (m : M A) (k : A → M B) s w e s' w' :
  m s w = (Raised e, s', w') → bind m k s w = (Raised e, s', w').
Proof. unfold bind. by intros ->. Qed.

(** A loop whose body only checks its element. *)
Lemma for_each_check {A : Type} (ok : A → bool) (e : exn) (xs : list A) s w :
  for_each xs (λ x, if negb (ok x) then raise e else ret ()) s w
  = if forallb ok xs then (Returned (), s, w) else (Raised e, s, w).
Proof.
  induction xs as [|x xs IH]; [done|]. simpl. unfold bind at 1.
  destruct (ok x); simpl; [apply IH | done].
Qed.

(** ** The version number *)

Lemma setVersionNumber_run (v : string) s w :
  setVersionNumber v s w =
    if bool_decide (length (PyStr.split "." v) ≠ 3) then
      (Raised (ValueError "version should have 3 levels (e.g. 4.2.0)"), s, w)
    else if forallb PyStr.isdigit (PyStr.split "." v) then
      (Returned (), set_version v s, w)
    else (Raised (TypeError "each level must consist only of integers"), s, w).
Proof.
  unfold setVersionNumber. case_bool_decide; [done|].
  unfold bind at 1. rewrite for_each_check.
  by destruct (forallb _ _).
Qed.



(** The version stored is the version of the next file name. *)
Lemma version_round_trips (v : string) s w :
  version_format v → _firstTime s = None →
  permanent_name (object_of (setVersionNumber v s w))
  = Some (_prefix s +:+ "_v" +:+ v +:+ ".cdf").
Proof.
  intros Hv Hfirst.
  rewrite setVersionNumber_run.
  apply PyStrFacts.version_format_check in Hv as [Hlen Hall].
  rewrite bool_decide_false by (intros Hne; apply Hne, Hlen).
  rewrite Hall. unfold permanent_name, object_of. simpl. by rewrite Hfirst.
Qed.

Lemma getLastCDFFilename_run s w :
  getLastCDFFilename s w = (Returned (_last_cdf_filename s), s, w).
Proof. reflexivity. Qed.

(** ** The attribute registry *)

Module OrderedDictFacts.
Import OrderedDict.

Lemma get_set_eq {V : Type} (k : string) (v : V) (d : t V) :
  get k (set k v d) = Some v.
Proof.
  induction d as [|[k' v'] d IH]; simpl.
  - by rewrite decide_True.
  - case_decide as Hk; simpl.
    + by rewrite decide_True.
    + by rewrite decide_False.
Qed.

Lemma get_set_ne {V : Type} (k k' : string) (v : V) (d : t V) :
  k ≠ k' → get k' (set k v d) = get k' d.
Proof.
  intros Hne. induction d as [|[k0 v0] d IH]; simpl.
  - by rewrite decide_False.
  - case_decide as Hk; simpl.
    + subst k0. by rewrite !decide_False.
    + case_decide; [done | apply IH].
Qed.

End OrderedDictFacts.

Lemma addGlobalAttribute_run (name : string) (value : attr_value) s w :
  addGlobalAttribute name value s w
  = (Returned (), set_global_attrs (OrderedDict.set name value (_global_attrs s)) s, w).
Proof. reflexivity. Qed.

Lemma addVariableAttribute_run (a v : string) (x : attr_value) s w :
  addVariableAttribute a v x s w = (Returned (), with_var_attr a v x s, w).
Proof.
  unfold addVariableAttribute, with_var_attr, bind, self, when, assign, ret.
  case_bool_decide as Hv; simpl.
  - rewrite Hv. simpl. by rewrite alter_insert_eq.
  - destruct (_variable_attrs s !! v) as [attrs|] eqn:Hattrs; [|done].
    simpl. by rewrite (alter_alt_Some _ _ _ attrs).
Qed.

Lemma var_attr_with_eq (a v : string) (x : attr_value) s :
  var_attr (with_var_attr a v x s) v a = Some x.
Proof.
  unfold var_attr, with_var_attr. simpl.
  rewrite lookup_insert_eq. apply OrderedDictFacts.get_set_eq.
Qed.

Lemma var_attr_with_ne (a a' v : string) (x : attr_value) s :
  a ≠ a' → var_attr (with_var_attr a v x s) v a' = var_attr s v a'.
Proof.
  intros Hne. unfold var_attr, with_var_attr. simpl.
  rewrite lookup_insert_eq, OrderedDictFacts.get_set_ne by done.
  by destruct (_variable_attrs s !! v).
Qed.

(** One assignment of an attribute, as a step of a builder. *)
Ltac attribute_step :=
  unfold bind at 1; rewrite addVariableAttribute_run.

Lemma addSupportVariableAttributes_run
    (variable_name short_description long_description units_string
       format_string : string) (validmin validmax : attr_value)
    (lablaxis si_conversion scaleType : string) s w :
  addSupportVariableAttributes variable_name short_description long_description
    units_string format_string validmin validmax lablaxis si_conversion scaleType s w
  = (Returned (),
     with_var_attr "SCALETYP" variable_name (AStr scaleType)
       (with_var_attr "LABLAXIS" variable_name (AStr lablaxis)
       (with_var_attr "SI_CONVERSION" variable_name (AStr si_conversion)
       (with_var_attr "VAR_TYPE" variable_name (AStr "support_data")
       (with_var_attr "CATDESC" variable_name (AStr long_description)
       (with_var_attr "FORMAT" variable_name (AStr format_string)
       (with_var_attr "UNITS" variable_name
          (AStr (if bool_decide (String.length units_string = 0)
                 then "unitless" else units_string))
       (with_var_attr "VALIDMAX" variable_name validmax
       (with_var_attr "VALIDMIN" variable_name validmin
       (with_var_attr "FIELDNAM" variable_name (AStr short_description) s))))))))),
     w).
Proof.
  unfold addSupportVariableAttributes.
  do 9 attribute_step. by rewrite addVariableAttribute_run.
Qed.

(** What the plot-variable builder does after the fill value. *)
Lemma plot_attributes_tail
    (variable_name long_description display_type units_string
       format_string scaleType : string) s w :
  (addVariableAttribute "SCALETYP" variable_name (AStr scaleType) ;;
   addVariableAttribute "UNITS" variable_name (AStr units_string) ;;
   addVariableAttribute "FORMAT" variable_name (AStr format_string) ;;
   addVariableAttribute "CATDESC" variable_name (AStr long_description) ;;
   addVariableAttribute "VAR_TYPE" variable_name (AStr "data") ;;
   addVariableAttribute "DISPLAY_TYPE" variable_name (AStr display_type) ;;
   addVariableAttribute "SI_CONVERSION" variable_name (AStr " > ") ;;
   addVariableAttribute "DEPEND_0" variable_name (AStr "Epoch") ;;
   addVariableAttribute "COORDINATE_SYSTEM" variable_name (AStr "BCS")) s w
  = (Returned (),
     with_var_attr "COORDINATE_SYSTEM" variable_name (AStr "BCS")
       (with_var_attr "DEPEND_0" variable_name (AStr "Epoch")
       (with_var_attr "SI_CONVERSION" variable_name (AStr " > ")
       (with_var_attr "DISPLAY_TYPE" variable_name (AStr display_type)
       (with_var_attr "VAR_TYPE" variable_name (AStr "data")
       (with_var_attr "CATDESC" variable_name (AStr long_description)
       (with_var_attr "FORMAT" variable_name (AStr format_string)
       (with_var_attr "UNITS" variable_name (AStr units_string)
       (with_var_attr "SCALETYP" variable_name (AStr scaleType) s)))))))),
     w).
Proof. do 8 attribute_step. by rewrite addVariableAttribute_run. Qed.

Lemma addPlotVariableAttributes_run
    (variable_name short_description long_description display_type units_string
       format_string lablaxis : string) (dataType : option cdf_type)
    (validmin validmax : attr_value) (scaleType : string) (addFill : bool) s w :
  addPlotVariableAttributes variable_name short_description long_description
    display_type units_string format_string lablaxis dataType validmin validmax
    scaleType addFill s w
  = let s1 := plot_attributes_head variable_name short_description lablaxis
                validmin validmax s in
    let finish s2 :=
      (Returned (),
       with_var_attr "COORDINATE_SYSTEM" variable_name (AStr "BCS")
         (with_var_attr "DEPEND_0" variable_name (AStr "Epoch")
         (with_var_attr "SI_CONVERSION" variable_name (AStr " > ")
         (with_var_attr "DISPLAY_TYPE" variable_name (AStr display_type)
         (with_var_attr "VAR_TYPE" variable_name (AStr "data")
         (with_var_attr "CATDESC" variable_name (AStr long_description)
         (with_var_attr "FORMAT" variable_name (AStr format_string)
         (with_var_attr "UNITS" variable_name (AStr units_string)
         (with_var_attr "SCALETYP" variable_name (AStr scaleType) s2)))))))),
       w) in
    if addFill then
      match dataType ≫= fill_table with
      | Some fill => finish (with_var_attr "FILLVAL" variable_name fill s1)
      | None =>
          (Aborted, s1,
           with_event
             (Stdout ("For " +:+ variable_name +:+ " data_type must be one of "
                     +:+ "('CDF_DOUBLE', 'CDF_FLOAT', 'CDF_UINT1', 'CDF_UINT2', 'CDF_UINT1', 'CDF_INT4')"))
             w)
      end
    else finish s1.
Proof.
  unfold addPlotVariableAttributes, plot_attributes_head.
  do 4 attribute_step.
  unfold bind at 1.
  destruct addFill; simpl.
  - destruct dataType as [[]|]; simpl;
      try (rewrite addVariableAttribute_run; apply plot_attributes_tail);
      reflexivity.
  - apply plot_attributes_tail.
Qed.

Lemma var_attr_plot_head (variable_name short_description lablaxis a : string)
    (validmin validmax : attr_value) s :
  a ≠ "FIELDNAM" → a ≠ "VALIDMIN" → a ≠ "VALIDMAX" → a ≠ "LABLAXIS" →
  var_attr (plot_attributes_head variable_name short_description lablaxis
              validmin validmax s) variable_name a
  = var_attr s variable_name a.
Proof.
  intros. unfold plot_attributes_head. by rewrite !var_attr_with_ne.
Qed.

(** C8: when the plot-variable builder is asked for a fill value, the element
    type passed to it decides by the fixed table: CDF_DOUBLE and CDF_FLOAT
    give FILLVAL 1.0e31, CDF_UINT1 255, CDF_UINT2 65535, CDF_INT4 1 and
    CDF_UINT4 -1, and the builder returns; for any other element type, and
    for none, the process aborts and the FILLVAL of the variable is what it
    was before the call. *)
Theorem FILLVAL_by_type
    (variable_name short_description long_description display_type units_string
       format_string lablaxis : string) (dataType : option cdf_type)
    (validmin validmax : attr_value) (scaleType : string) (s : CDFWriter) (w : World) :
  fill_table CDF_DOUBLE = Some (AFloat 1 31)
  ∧ fill_table CDF_FLOAT = Some (AFloat 1 31)
  ∧ fill_table CDF_UINT1 = Some (AInt 255)
  ∧ fill_table CDF_UINT2 = Some (AInt 65535)
  ∧ fill_table CDF_INT4 = Some (AInt 1)
  ∧ fill_table CDF_UINT4 = Some (AInt (-1))
  ∧ (∀ type, fill_table type = None ↔
       type ∉ [CDF_DOUBLE; CDF_FLOAT; CDF_UINT1; CDF_UINT2; CDF_INT4; CDF_UINT4])
  ∧ let r := addPlotVariableAttributes variable_name short_description
               long_description display_type units_string format_string lablaxis
               dataType validmin validmax scaleType true s w in
    match dataType ≫= fill_table with
    | Some fill =>
        outcome_of r = Returned ()
        ∧ var_attr (object_of r) variable_name "FILLVAL" = Some fill
    | None =>
        outcome_of r = Aborted
        ∧ var_attr (object_of r) variable_name "FILLVAL"
          = var_attr s variable_name "FILLVAL"
    end.
Proof.
  repeat (split; [reflexivity|]).
  split.
  - intros type. rewrite list_elem_of_In.
    destruct type; simpl; split; intros H; try done; try tauto;
      intros Hin; repeat (destruct Hin as [Hin|Hin]; [discriminate Hin|]); done.
  - intros r. subst r. rewrite addPlotVariableAttributes_run. simpl.
    destruct (dataType ≫= fill_table) as [fill|]; simpl.
    + split; [done|]. unfold object_of. simpl.
      rewrite !var_attr_with_ne by done. apply var_attr_with_eq.
    + split; [done|]. unfold object_of. simpl.
      by apply var_attr_plot_head.
Qed.

(** C9, as the code has it: with an empty units argument the support-variable
    builder records UNITS as the text unitless, and the plot-variable builder,
    whenever it returns, records UNITS as the empty text it was given. *)
Theorem UNITS_of_blank
    (variable_name short_description long_description display_type
       format_string lablaxis si_conversion : string) (dataType : option cdf_type)
    (validmin validmax : attr_value) (scaleType : string) (addFill : bool)
    (s : CDFWriter) (w : World) :
  var_attr
    (object_of
       (addSupportVariableAttributes variable_name short_description
          long_description "" format_string validmin validmax lablaxis
          si_conversion scaleType s w))
    variable_name "UNITS" = Some (AStr "unitless")
  ∧ let r := addPlotVariableAttributes variable_name short_description
               long_description display_type "" format_string lablaxis
               dataType validmin validmax scaleType addFill s w in
    if addFill && bool_decide (dataType ≫= fill_table = None)
    then outcome_of r = Aborted
    else outcome_of r = Returned ()
         ∧ var_attr (object_of r) variable_name "UNITS" = Some (AStr "").
Proof.
  split.
  - rewrite addSupportVariableAttributes_run. unfold object_of. simpl.
    rewrite !var_attr_with_ne by done. apply var_attr_with_eq.
  - intros r. subst r. rewrite addPlotVariableAttributes_run. simpl.
    destruct addFill; simpl.
    + destruct (dataType ≫= fill_table) as [fill|]; simpl; [|done].
      split; [done|]. unfold object_of. simpl.
      rewrite !var_attr_with_ne by done. apply var_attr_with_eq.
    + split; [done|]. unfold object_of. simpl.
      rewrite !var_attr_with_ne by done. apply var_attr_with_eq.
Qed.

(** ** The time span *)

(** What one append does to the catalog and to the time span, however it
    ends. *)
Lemma addVariableData_times (n : string) (d : pydata) (a : bool) s w :
  "Epoch" ∈ map v_name (_variables s) →
  let s' := object_of (addVariableData n d a s w) in
  _variables s' = _variables s
  ∧ _firstTime s' =
      (if decide (n = "Epoch") then
         match _firstTime s with Some f => Some f | None => head (stamps d) end
       else _firstTime s)
  ∧ _lastTime s' =
      (if decide (n = "Epoch") then
         match last (stamps d) with Some l => Some l | None => _lastTime s end
       else _lastTime s).
Proof.
  intros Hdecl. unfold addVariableData, object_of, stamps.
  unfold py_first, py_last, py_append, bind, self, when, assign, ret, raise.
  set (ts := match d with DSeq items => items | _ => [d] end).
  destruct (decide (n = "Epoch")) as [->|Hn].
  - rewrite (bool_decide_true _ Hdecl). simpl.
    destruct (_firstTime s) as [f|] eqn:Hf.
    + rewrite bool_decide_false by done.
      destruct (last ts) as [l|] eqn:Hl; simpl; rewrite ?Hf; [|done].
      destruct a; simpl; repeat (case_bool_decide || case_match);
        simplify_eq; simpl; rewrite ?Hf; done.
    + rewrite bool_decide_true by done.
      destruct ts as [|t ts']; simpl; rewrite ?Hf; [done|].
      destruct (last (t :: ts')) as [l|] eqn:Hl.
      * destruct a; simpl; repeat (case_bool_decide || case_match);
          simplify_eq; simpl; rewrite ?Hf; done.
      * by rewrite last_cons in Hl; destruct (last ts').
  - rewrite (bool_decide_false (n = "Epoch")) by done.
    destruct (bool_decide (n ∈ map v_name (_variables s))); [|done].
    destruct a; simpl; repeat (case_bool_decide || case_match);
      simplify_eq; simpl; done.
Qed.

Lemma head_app_or {A : Type} (xs ys : list A) :
  head (xs ++ ys) = match head xs with Some x => Some x | None => head ys end.
Proof. by destruct xs. Qed.

Lemma last_app_or {A : Type} (xs ys : list A) :
  last (xs ++ ys) = match last ys with Some y => Some y | None => last xs end.
Proof.
  induction ys as [|y ys _] using rev_ind.
  - by rewrite app_nil_r.
  - by rewrite app_assoc, !last_snoc.
Qed.

(** The time span after a run of appends, from the time span before it and
    the time stamps handed over. *)
Lemma run_calls_times (calls : list append_call) s w :
  "Epoch" ∈ map v_name (_variables s) →
  let s' := (run_calls calls s w).1 in
  _firstTime s' =
    match _firstTime s with Some f => Some f | None => head (epoch_stamps calls) end
  ∧ _lastTime s' =
    match last (epoch_stamps calls) with Some l => Some l | None => _lastTime s end.
Proof.
  revert s w. induction calls as [|c calls IH]; intros s w Hdecl.
  - simpl. by destruct (_firstTime s).
  - simpl.
    destruct (addVariableData_times (call_name c) (call_data c)
                (call_all_values c) s w Hdecl) as (Hv & Hf & Hl).
    destruct (IH (object_of (addVariableData (call_name c) (call_data c)
                               (call_all_values c) s w))
                 (world_of (addVariableData (call_name c) (call_data c)
                              (call_all_values c) s w))) as [IHf IHl].
    { by rewrite Hv. }
    rewrite IHf, IHl, Hf, Hl. unfold epoch_stamps. simpl.
    fold (epoch_stamps calls).
    rewrite head_app_or, last_app_or.
    destruct (decide (call_name c = "Epoch")); simpl.
    + split.
      * by destruct (_firstTime s), (head (stamps (call_data c))).
      * by destruct (last (epoch_stamps calls)).
    + split; [done | by destruct (last (epoch_stamps calls))].
Qed.

Lemma List_last_cons {A : Type} (ys : list A) (y x : A) :
  List.last (y :: ys) x = List.last ys y.
Proof.
  revert y x. induction ys as [|z zs IH]; intros y x; [done|].
  change (List.last (y :: z :: zs) x) with (List.last (z :: zs) x).
  by rewrite !IH.
Qed.

Lemma last_cons_default {A : Type} (x : A) (xs : list A) :
  last (x :: xs) = Some (List.last xs x).
Proof.
  revert x. induction xs as [|y ys IH]; intros x; [done|].
  by rewrite last_cons, IH, List_last_cons.
Qed.

(** C2: let the time variable Epoch be declared and the time span be empty.
    After any run of appends, incremental or bulk, with bare or sequence
    payloads, that hands the time stamps T1, ..., Tn to Epoch in call order,
    the first time stamp of the span is T1 and the last is Tn. *)
Theorem time_span_of_appends (calls : list append_call) (s : CDFWriter) (w : World)
    (T1 : pydata) (later : list pydata) :
  "Epoch" ∈ map v_name (_variables s) →
  _firstTime s = None →
  epoch_stamps calls = T1 :: later →
  _firstTime (run_calls calls s w).1 = Some T1
  ∧ _lastTime (run_calls calls s w).1 = Some (List.last later T1).
Proof.
  intros Hdecl Hfirst Hstamps.
  destruct (run_calls_times calls s w Hdecl) as [Hf Hl].
  rewrite Hf, Hl, Hfirst, Hstamps. split; [done|].
  by rewrite last_cons_default.
Qed.

(** ** Traces *)

Lemma with_events_nil w : with_events [] w = w.
Proof. destruct w. unfold with_events. simpl. by rewrite app_nil_r. Qed.

Lemma with_events_app evs evs' w :
  with_events evs' (with_events evs w) = with_events (evs ++ evs') w.
Proof. unfold with_events. simpl. by rewrite app_assoc. Qed.

Lemma emit_run (e : event) s w : emit e s w = (Returned (), s, with_events [e] w).
Proof. reflexivity. Qed.

Lemma since_with_events evs w : since w (with_events evs w) = evs.
Proof. unfold since, with_events. simpl. by rewrite drop_app_length. Qed.


(** A loop whose body only makes calls. *)
Lemma for_each_emits {A : Type} (f : A → list event) (body : A → M unit)
    (xs : list A) s w :
  (∀ x s w, body x s w = (Returned (), s, with_events (f x) w)) →
  for_each xs body s w = (Returned (), s, with_events (flat_map f xs) w).
Proof.
  intros Hbody. revert w. induction xs as [|x xs IH]; intros w; simpl.
  - by rewrite with_events_nil.
  - unfold bind. rewrite Hbody, IH. by rewrite with_events_app.
Qed.

Lemma flat_map_singleton {A B : Type} (f : A → B) (xs : list A) :
  flat_map (λ x, [f x]) xs = map f xs.
Proof. induction xs as [|x xs IH]; simpl; [done|]. by rewrite IH. Qed.

Lemma attrs_emits (cdf var : string) (attrs : option (OrderedDict.t attr_value)) s w :
  match attrs with
  | Some attrs =>
      for_each (OrderedDict.items attrs)
        (λ '(name, value), emit (CDF_var_attr cdf var name value))
  | None => ret ()
  end s w
  = (Returned (), s, with_events (attr_events cdf var attrs) w).
Proof.
  destruct attrs as [attrs|]; simpl.
  - rewrite (for_each_emits (λ '(name, value), [CDF_var_attr cdf var name value])).
    + f_equal. f_equal. unfold OrderedDict.items.
      induction attrs as [|[n v] attrs IH]; simpl; [done|]. by rewrite IH.
    + by intros [n v] s' w'.
  - by rewrite with_events_nil.
Qed.

(** The write pipeline returns, leaves the object alone and makes the calls
    of [write_events]. *)
Lemma _writeData_run s w :
  _writeData s w = (Returned (), s, with_events (write_events s) w).
Proof.
  unfold _writeData, write_events. unfold bind at 1. unfold self at 1.
  unfold bind at 1.
  rewrite (for_each_emits (λ '(name, value), [CDF_attr (_cdf s) name value]))
    by (by intros [n v] s' w').
  unfold bind at 1.
  rewrite (for_each_emits (constant_events s)).
  2:{ intros c s' w'. unfold bind at 1. rewrite emit_run.
      unfold bind at 1. rewrite attrs_emits.
      unfold constant_events.
      destruct (_constantData s !! c_name c) as [[first later]|].
      - rewrite emit_run, !with_events_app. done.
      - unfold ret. rewrite !with_events_app, app_nil_r. done. }
  rewrite (for_each_emits (variable_events s)).
  2:{ intros v s' w'. unfold bind at 1. rewrite emit_run.
      unfold bind at 1. rewrite attrs_emits.
      unfold variable_events.
      destruct (_data s !! v_name v) as [payload|].
      - rewrite emit_run, !with_events_app. done.
      - unfold ret. rewrite !with_events_app, app_nil_r. done. }
  rewrite !with_events_app. f_equal. f_equal. f_equal.
  unfold OrderedDict.items.
  induction (_global_attrs s) as [|[n v] attrs IH]; simpl; [done|]. by rewrite IH.
Qed.

(** ** Seals *)

Lemma os_path_exists_run (path : string) s w :
  os_path_exists path s w
  = (Returned (bool_decide (path ∈ fs w)), s, with_events [OS_exists path] w).
Proof. reflexivity. Qed.

Lemma os_rename_run (src dst : string) s w :
  os_rename src dst s w
  = if bool_decide (src ∈ fs w) then
      (Returned (), s,
       with_fs (λ paths, (paths ∖ {[src]}) ∪ {[dst]}) (with_events [OS_rename src dst] w))
    else (Raised (FileNotFoundError src), s, with_events [OS_rename src dst] w).
Proof.
  unfold os_rename, bind, emit, world, ret, change_fs, raise. simpl.
  by destruct (bool_decide (src ∈ fs w)).
Qed.

Lemma os_unlink_run (path : string) s w :
  os_unlink path s w
  = if bool_decide (path ∈ fs w) then
      (Returned (), s,
       with_fs (λ paths, paths ∖ {[path]}) (with_events [OS_unlink path] w))
    else (Raised (FileNotFoundError path), s, with_events [OS_unlink path] w).
Proof.
  unfold os_unlink, bind, emit, world, ret, change_fs, raise. simpl.
  by destruct (bool_decide (path ∈ fs w)).
Qed.

(** The second half of [close], where [s0] is the object as [close] read it
    before it set its global attributes. *)
Lemma seal_run (new_filename : string) s0 s w :
  _data s0 = _data s → _cdf s0 = _cdf s →
  _outputDirectory s0 = _outputDirectory s → _cdf_temp_name s0 = _cdf_temp_name s →
  (when (negb (bool_decide (_data s0 = ∅))) _writeData ;;
   emit (CDF_close (_cdf s0)) ;;
   present <- os_path_exists (_outputDirectory s0 +:+ new_filename) ;;
   (if present then
      raise (RuntimeError [_outputDirectory s0 +:+ new_filename; "already exists!"])
    else os_rename (_cdf_temp_name s0) (_outputDirectory s0 +:+ new_filename)) ;;
   (if bool_decide (_data s0 = ∅) then os_unlink (_outputDirectory s0 +:+ new_filename)
    else assign (set_last_cdf_filename (Some new_filename))) ;;
   assign (set_data ∅) ;;
   assign (set_firstTime None) ;;
   assign (set_lastTime None)) s w
  = seal new_filename s w.
Proof.
  intros -> -> -> ->. unfold seal.
  set (path := _outputDirectory s +:+ new_filename).
  unfold bind at 1.
  replace (when (negb (bool_decide (_data s = ∅))) _writeData s w)
    with (Returned (), s,
          with_events (if bool_decide (_data s = ∅) then [] else write_events s) w).
  2:{ destruct (bool_decide (_data s = ∅)); simpl.
      - by rewrite with_events_nil.
      - by rewrite _writeData_run. }
  unfold bind at 1. rewrite emit_run, with_events_app.
  unfold bind at 1. rewrite os_path_exists_run, with_events_app.
  rewrite <- app_assoc. simpl fs. simpl ((_ :: _) ++ _).
  destruct (bool_decide (path ∈ fs w)) eqn:Hpath.
  { reflexivity. }
  unfold bind at 1. rewrite os_rename_run. simpl fs.
  destruct (bool_decide (_cdf_temp_name s ∈ fs w)) eqn:Htemp.
  2:{ reflexivity. }
  destruct (bool_decide (_data s = ∅)) eqn:Hdata.
  - unfold bind at 1. rewrite os_unlink_run. simpl fs.
    rewrite bool_decide_true
      by (apply elem_of_union; right; by apply elem_of_singleton).
    reflexivity.
  - reflexivity.
Qed.


#[local] Arguments datetime.strftime : simpl never.

(** [close], case by case. *)
Lemma close_run s w :
  close s w =
    match permanent_name s with
    | Some new_filename => seal new_filename (labelled s w) w
    | None =>
        (Raised (AttributeError
                   ("'" +:+ type_name (_firstTime s)
                    +:+ "' object has no attribute 'strftime'")),
         stamped s w, w)
    end.
Proof.
  unfold close, permanent_name, labelled.
  unfold datetime_now, world. unfold bind at 1. unfold bind at 1. unfold ret at 1.
  unfold bind at 1. rewrite addGlobalAttribute_run.
  unfold bind at 1. unfold self at 1.
  unfold bind at 1. rewrite addGlobalAttribute_run.
  unfold bind at 1. rewrite addGlobalAttribute_run.
  change (set_global_attrs _ (set_global_attrs _ (set_global_attrs _ s)))
    with (stamped s w).
  simpl _firstTime. simpl _prefix. simpl _version. simpl _data. simpl _cdf.
  simpl _outputDirectory. simpl _cdf_temp_name.
  unfold bind at 1.
  destruct (_firstTime s) as [[t| | |]|] eqn:Hfirst; try reflexivity.
  - unfold py_strftime. unfold bind at 1. unfold ret at 1.
    unfold bind at 1. rewrite addGlobalAttribute_run. unfold ret at 1.
    by apply seal_run.
  - unfold ret at 1. by apply seal_run.
Qed.

(** What a seal leaves behind, one aspect at a time. *)

Lemma seal_outcome (name : string) s w :
  outcome_of (seal name s w) =
    if bool_decide (_outputDirectory s +:+ name ∈ fs w) then
      Raised (RuntimeError [_outputDirectory s +:+ name; "already exists!"])
    else if bool_decide (_cdf_temp_name s ∈ fs w) then Returned ()
    else Raised (FileNotFoundError (_cdf_temp_name s)).
Proof. unfold seal. by repeat case_bool_decide. Qed.

Lemma seal_object (name : string) s w :
  object_of (seal name s w) =
    if bool_decide (_outputDirectory s +:+ name ∈ fs w) then s
    else if bool_decide (_cdf_temp_name s ∈ fs w) then
      if bool_decide (_data s = ∅) then reset s
      else reset (set_last_cdf_filename (Some name) s)
    else s.
Proof. unfold seal. by repeat case_bool_decide. Qed.

Lemma seal_fs (name : string) s w :
  fs (world_of (seal name s w)) =
    if bool_decide (_outputDirectory s +:+ name ∈ fs w) then fs w
    else if bool_decide (_cdf_temp_name s ∈ fs w) then
      if bool_decide (_data s = ∅)
      then ((fs w ∖ {[_cdf_temp_name s]}) ∪ {[_outputDirectory s +:+ name]})
           ∖ {[_outputDirectory s +:+ name]}
      else (fs w ∖ {[_cdf_temp_name s]}) ∪ {[_outputDirectory s +:+ name]}
    else fs w.
Proof. unfold seal. by repeat case_bool_decide. Qed.








Lemma labelled_fields s w :
  _prefix (labelled s w) = _prefix s
  ∧ _outputDirectory (labelled s w) = _outputDirectory s
  ∧ _cdf_temp_name (labelled s w) = _cdf_temp_name s
  ∧ _cdf (labelled s w) = _cdf s
  ∧ _last_cdf_filename (labelled s w) = _last_cdf_filename s
  ∧ _version (labelled s w) = _version s
  ∧ _data (labelled s w) = _data s
  ∧ _constantData (labelled s w) = _constantData s.
Proof. unfold labelled. by destruct (_firstTime s) as [[]|]. Qed.








(** C6, as the code has it: after a [close] that returns, the buffer of the
    variables is empty for every name and the time span is empty; the data of
    the constants is what it was; and when data was buffered the last file
    name is the permanent file name, with the file at its path, else the last
    file name is what it was. *)
Theorem close_resets (s : CDFWriter) (w : World) :
  outcome_of (close s w) = Returned () →
  (∀ name, _data (object_of (close s w)) !! name = None)
  ∧ _firstTime (object_of (close s w)) = None
  ∧ _lastTime (object_of (close s w)) = None
  ∧ _constantData (object_of (close s w)) = _constantData s
  ∧ (_data s ≠ ∅ →
       ∃ name, permanent_name s = Some name
               ∧ _last_cdf_filename (object_of (close s w)) = Some name
               ∧ (_outputDirectory s +:+ name) ∈ fs (world_of (close s w)))
  ∧ (_data s = ∅ →
       _last_cdf_filename (object_of (close s w)) = _last_cdf_filename s).
Proof.
  destruct (labelled_fields s w) as (_ & Hdir & Htemp & _ & Hlast & _ & Hdata & Hconst).
  rewrite close_run.
  destruct (permanent_name s) as [name|]; [|discriminate].
  rewrite seal_outcome, seal_object, seal_fs, Hdir, Htemp, Hdata.
  case_bool_decide as Hthere; [discriminate|].
  case_bool_decide as Htmp; [|discriminate].
  intros _. case_bool_decide as Hempty; simpl.
  - done.
  - repeat (split; [done|]). split; [|done].
    intros _. exists name. repeat (split; [done|]).
    apply elem_of_union. right. by apply elem_of_singleton.
Qed.

(** ** The split policy *)

Lemma reopen_run s w :
  (s1 <- self ;;
   temp <- new_temp_name (_outputDirectory s1) ;;
   assign (set_cdf_temp_name temp) ;;
   handle <- pycdf_CDF temp ;;
   assign (set_cdf handle)) s w
  = reopen s w.
Proof. reflexivity. Qed.





(** [closeRecord], case by case. *)
Lemma closeRecord_run s w :
  closeRecord s w =
    if _doNotSplit s then (Returned (), s, w)
    else match py_span_reached (_lastTime s) (_firstTime s) (_boundary s) s w with
         | (Returned true, _, _) => makeNewFile s w
         | (Returned false, _, _) => (Returned (), s, w)
         | (Raised e, _, _) => (Raised e, s, w)
         | (Aborted, _, _) => (Aborted, s, w)
         end.
Proof.
  unfold closeRecord. unfold bind at 1. unfold self at 1.
  destruct (_doNotSplit s); [done|].
  unfold bind, py_span_reached, ret, raise, when.
  destruct (_lastTime s) as [[]|], (_firstTime s) as [[]|]; try done.
  by destruct (_ <=? _)%Z.
Qed.





(** C10: with splitting on and no time stamp recorded, neither a first nor a
    last one, [closeRecord] raises the TypeError of the subtraction of None
    from None, and changes nothing. *)
Theorem closeRecord_without_time_span (s : CDFWriter) (w : World) :
  _doNotSplit s = false → _firstTime s = None → _lastTime s = None →
  closeRecord s w
  = (Raised (TypeError
       "unsupported operand type(s) for -: 'NoneType' and 'NoneType'"), s, w).
Proof.
  intros Hon Hfirst Hlast. by rewrite closeRecord_run, Hon, Hfirst, Hlast.
Qed.

(** ** The properties on the example sessions *)

Example probe_filled_seals :
  let r := close probe_filled.1 probe_filled.2 in
  outcome_of r = Returned ()
  ∧ _last_cdf_filename (object_of r) = Some "probeA_20240101000000_v1.0.0.cdf"
  ∧ global_attr (object_of r) "Data_version" = Some (AStr "v1.0.0")
  ∧ global_attr (object_of r) "Logical_source" = Some (AStr "probeA")
  ∧ elements (fs (world_of r)) = ["out/probeA_20240101000000_v1.0.0.cdf"; "out/"].
Proof. vm_compute. done. Qed.


Lemma time_span_of_appends_witness :
  _firstTime (run_calls mixed_calls probe_declared.1 probe_declared.2).1
  = Some (DTime (datetime.mk 2024 1 1 0 0 0 0))
  ∧ _lastTime (run_calls mixed_calls probe_declared.1 probe_declared.2).1
    = Some (DTime (datetime.mk 2024 1 1 4 0 0 0)).
Proof.
  apply (time_span_of_appends mixed_calls probe_declared.1 probe_declared.2
           (DTime (datetime.mk 2024 1 1 0 0 0 0))
           [DTime (datetime.mk 2024 1 1 1 0 0 0); DTime (datetime.mk 2024 1 1 2 0 0 0);
            DTime (datetime.mk 2024 1 1 3 0 0 0); DTime (datetime.mk 2024 1 1 4 0 0 0)]).
  - vm_compute. apply list_elem_of_In. simpl. tauto.
  - vm_compute. reflexivity.
  - vm_compute. reflexivity.
Defined.





Lemma close_resets_witness :
  (∀ name, _data (object_of (close probe_filled.1 probe_filled.2)) !! name = None)
  ∧ _firstTime (object_of (close probe_filled.1 probe_filled.2)) = None
  ∧ _lastTime (object_of (close probe_filled.1 probe_filled.2)) = None
  ∧ _constantData (object_of (close probe_filled.1 probe_filled.2))
    = _constantData probe_filled.1
  ∧ (_data probe_filled.1 ≠ ∅ →
       ∃ name, permanent_name probe_filled.1 = Some name
               ∧ _last_cdf_filename (object_of (close probe_filled.1 probe_filled.2))
                 = Some name
               ∧ (_outputDirectory probe_filled.1 +:+ name)
                   ∈ fs (world_of (close probe_filled.1 probe_filled.2)))
  ∧ (_data probe_filled.1 = ∅ →
       _last_cdf_filename (object_of (close probe_filled.1 probe_filled.2))
       = _last_cdf_filename probe_filled.1).
Proof.
  apply (close_resets probe_filled.1 probe_filled.2).
  vm_compute. reflexivity.
Defined.

(** C6, against the claim as it stands: after a seal that returned, with the
    file written and named, the declared constant Instrument_ID still has its
    data. *)
Lemma close_resets_counterexample :
  let r := close probe_filled.1 probe_filled.2 in
  outcome_of r = Returned ()
  ∧ _last_cdf_filename (object_of r) = Some "probeA_20240101000000_v1.0.0.cdf"
  ∧ "Instrument_ID" ∈ map c_name (_constants (object_of r))
  ∧ _constantData (object_of r) !! "Instrument_ID" = Some (DInt 42, []).
Proof.
  vm_compute. repeat split. apply list_elem_of_In. simpl. tauto.
Qed.

Lemma closeRecord_without_time_span_witness :
  closeRecord (after (setDoNotSplit false (datetime.hours 6)) probe_new).1
    (after (setDoNotSplit false (datetime.hours 6)) probe_new).2
  = (Raised (TypeError
       "unsupported operand type(s) for -: 'NoneType' and 'NoneType'"),
     (after (setDoNotSplit false (datetime.hours 6)) probe_new).1,
     (after (setDoNotSplit false (datetime.hours 6)) probe_new).2).
Proof.
  apply closeRecord_without_time_span; vm_compute; reflexivity.
Defined.
